(** * The single-turn chat-completion script [TOOLS API CALLS/1-basic.py]

    The script reads a credential from the process environment, builds a
    client of the [openai] package, calls [client.chat.completions.create]
    once with a fixed model name and a fixed two-message conversation,
    indexes the first choice of the completion and prints its message
    content.

    The [openai] package and the hosted service are third-party: they are
    not part of the script.  They enter the model as the fields of a
    [World] (what the constructor and the [create] call answer, and which
    texts the encoder of standard output refuses), and the script is a
    program in a small monad that reads the world, logs every interaction
    with it, and stops at the first exception, as a Python module body
    does.

    A completion is taken with the shape the package declares for it: a
    list of choices, each with a message whose content is a string or
    [None].  What the script does on an object of another shape is not
    part of this model, and no statement below speaks of it. *)

From stdpp Require Import base strings list gmap.

Local Open Scope string_scope.
Local Open Scope Z_scope.

(** ** Python values used by the script *)

(** The literals the script writes down: strings, lists and dicts.  A dict
    literal keeps its keys in the order they are written. *)
#[warnings="-register-all"]
Inductive pyval : Type :=
| PNone
| PStr (s : string)
| PList (xs : list pyval)
| PDict (kvs : list (string * pyval)).

(** Keyword arguments of a call, in the order they are passed. *)
Definition kwargs : Type := list (string * pyval).

(** First binding of [name] in a keyword list or dict literal. *)
Fixpoint assoc (name : string) (kvs : list (string * pyval)) : option pyval :=
  match kvs with
  | [] => None
  | (k, v) :: rest => if String.eqb k name then Some v else assoc name rest
  end.

(** [d[name]] read back as a string, when [d] is a dict holding one there. *)
Definition dict_str (name : string) (d : pyval) : option string :=
  match d with
  | PDict kvs =>
      match assoc name kvs with
      | Some (PStr s) => Some s
      | _ => None
      end
  | _ => None
  end.

(** A message dict read back as its (role, content) pair. *)
Definition message_pair (d : pyval) : option (string * string) :=
  match dict_str "role" d, dict_str "content" d with
  | Some r, Some c => Some (r, c)
  | _, _ => None
  end.

(** All of [os] or nothing: the list of the values when every one is there. *)
Fixpoint all_some {A : Type} (os : list (option A)) : option (list A) :=
  match os with
  | [] => Some []
  | Some a :: rest =>
      match all_some rest with
      | Some l => Some (a :: l)
      | None => None
      end
  | None :: _ => None
  end.

(** The conversation a keyword list carries under [messages], as
    (role, content) pairs in order. *)
Definition request_messages (kw : kwargs) : option (list (string * string)) :=
  match assoc "messages" kw with
  | Some (PList ms) => all_some (map message_pair ms)
  | _ => None
  end.

(** ** Exceptions *)

(** [IndexError] is raised by the subscript [choices[0]] and
    [UnicodeEncodeError] by [print], when the encoder of standard output
    refuses the text; everything the [openai] package raises is an
    [SdkError] carrying its class name and message. *)
Inductive exn : Type :=
| IndexError (msg : string)
| UnicodeEncodeError (msg : string)
| SdkError (cls : string) (msg : string).

(** ** Objects returned by the client

    The script follows [completion.choices[0].message.content]: these are
    the attributes on that path.  [role] and [finish_reason] stand for the
    attributes next to them, which the script never reads.  The content of
    a message is optional. *)

Record ChatCompletionMessage : Type := {
  content : option string;
  role : string
}.

Record Choice : Type := {
  message : ChatCompletionMessage;
  finish_reason : string
}.

Record ChatCompletion : Type := {
  choices : list Choice
}.

(** The client object: it holds the credential it will authenticate with. *)
Record Client : Type := {
  api_key : string
}.

(** ** The world the script runs in *)

(** [environ] is the process environment; [sdk_new] is what the constructor
    [OpenAI(api_key=...)] answers; [sdk_create] is what one call of
    [client.chat.completions.create] with keyword arguments answers.  Either call
    returns or raises.  [stdout_refuses s] is the message of the
    [UnicodeEncodeError] with which the encoder of [sys.stdout] refuses the
    text [s], when it does (a lone surrogate on a UTF-8 stream, any
    character beyond ASCII on an ASCII stream); it is asked only about
    texts that are not pure ASCII. *)
Record World : Type := {
  environ : gmap string string;
  sdk_new : option string -> exn + Client;
  sdk_create : Client -> kwargs -> exn + ChatCompletion;
  stdout_refuses : string -> option string
}.

(** What an observer of the process sees, in order. *)
Inductive event : Type :=
| EGetenv (name : string)
| ENewClient (key : option string)
| ECreate (c : Client) (kw : kwargs)
| EWrite (s : string).

(** ** The monad of module bodies

    A computation reads the world and yields the events it caused together
    with a value or the exception that stopped it. *)
Definition M (A : Type) : Type := World -> list event * (exn + A).

#[global] Instance M_ret : MRet M :=
  fun A (a : A) (_ : World) => ([], inr a).

#[global] Instance M_bind : MBind M :=
  fun A B (f : A -> M B) (m : M A) (w : World) =>
    match m w with
    | (t, inl e) => (t, inl e)
    | (t, inr a) =>
        match f a w with
        | (t', r) => ((t ++ t')%list, r)
        end
    end.

Definition emit (e : event) : M unit := fun _ => ([e], inr tt).

Definition ask : M World := fun w => ([], inr w).

Definition lift {A : Type} (r : exn + A) : M A := fun _ => ([], r).

(** ** The library calls the script makes *)

(** [os.getenv(name)]: the value of the variable, or [None]. *)
Definition os_getenv (name : string) : M (option string) :=
  emit (EGetenv name);;
  w ← ask;
  mret (environ w !! name).

(** [OpenAI(api_key=key)]. *)
Definition OpenAI (key : option string) : M Client :=
  emit (ENewClient key);;
  w ← ask;
  lift (sdk_new w key).

(** [client.chat.completions.create] called with the keyword arguments [kw]. *)
Definition chat_completions_create (client : Client) (kw : kwargs) : M ChatCompletion :=
  emit (ECreate client kw);;
  w ← ask;
  lift (sdk_create w client kw).

(** [l[i]] on a Python list: a negative index counts from the end, and an
    index out of range raises [IndexError]. *)
Definition list_getitem {A : Type} (l : list A) (i : Z) : exn + A :=
  let n := Z.of_nat (length l) in
  let j := if i <? 0 then i + n else i in
  if (j <? 0) || (n <=? j) then inl (IndexError "list index out of range")
  else
    match l !! Z.to_nat j with
    | Some x => inr x
    | None => inl (IndexError "list index out of range")
    end.

Definition getitem {A : Type} (l : list A) (i : Z) : M A := lift (list_getitem l i).

(** [str(x)] for an optional string: [None] is rendered as the word. *)
Definition py_str (x : option string) : string :=
  match x with
  | Some s => s
  | None => "None"
  end.

(** The line feed. *)
Definition NL : string := String (Ascii.ascii_of_nat 10) EmptyString.

(** [s.isascii()]: every character of [s] is below 128. *)
Fixpoint isascii (s : string) : bool :=
  match s with
  | EmptyString => true
  | String ch rest => (Ascii.N_of_ascii ch <? 128)%N && isascii rest
  end.

(** The verdict of the encoder of standard output on [s]: [None] when it
    encodes the text, the message of the error when it refuses it.  A text
    of ASCII characters is encoded by every stream. *)
Definition encode_error (w : World) (s : string) : option string :=
  if isascii s then None else stdout_refuses w s.

(** [sys.stdout.write(s)]: the text is encoded when it is written, so a
    text the encoder refuses raises and leaves nothing on the stream. *)
Definition stdout_write (s : string) : M unit :=
  w ← ask;
  match encode_error w s with
  | None => emit (EWrite s)
  | Some msg => lift (inl (UnicodeEncodeError msg))
  end.

(** [print(x)]: writes [str(x)], then the line end. *)
Definition print (x : option string) : M unit :=
  stdout_write (py_str x);;
  stdout_write NL.

(** ** The script *)

(** The [messages=] literal of the call. *)
Definition messages : pyval :=
  PList
    [ PDict [("role", PStr "system"); ("content", PStr "You're a helpful assistant.")];
      PDict [("role", PStr "user");
             ("content", PStr "Write a limerick about the Python programming language.")] ].

(** The keyword arguments of the call, as written. *)
Definition create_kwargs : kwargs :=
  [("model", PStr "gpt-4o"); ("messages", messages)].

(** The module body, statement by statement. *)
Definition main : M unit :=
  key ← os_getenv "OPENAI_API_KEY";
  client ← OpenAI key;
  completion ← chat_completions_create client create_kwargs;
  choice0 ← getitem (choices completion) 0;
  let response := content (message choice0) in
  print response.

(** ** Running the script as a process *)

Definition run (w : World) : list event * (exn + unit) := main w.

Definition trace (w : World) : list event := (run w).1.

Definition result (w : World) : exn + unit := (run w).2.

(** What was written to standard output. *)
Fixpoint stdout (t : list event) : string :=
  match t with
  | [] => EmptyString
  | EWrite s :: rest => s +:+ stdout rest
  | _ :: rest => stdout rest
  end.

(** The calls of [create] that were issued. *)
Fixpoint requests (t : list event) : list (Client * kwargs) :=
  match t with
  | [] => []
  | ECreate c kw :: rest => (c, kw) :: requests rest
  | _ :: rest => requests rest
  end.

(** The environment variables that were read. *)
Fixpoint env_reads (t : list event) : list string :=
  match t with
  | [] => []
  | EGetenv n :: rest => n :: env_reads rest
  | _ :: rest => env_reads rest
  end.

(** The credentials handed to the constructor. *)
Fixpoint constructed (t : list event) : list (option string) :=
  match t with
  | [] => []
  | ENewClient k :: rest => k :: constructed rest
  | _ :: rest => constructed rest
  end.

(** The interpreter exits 0 when the module body returns and 1 when an
    exception reaches the top level. *)
Definition exit_status (r : exn + unit) : Z :=
  match r with
  | inr _ => 0
  | inl _ => 1
  end.

(** The constructor returned a client and the call on it returned a
    completion with at least one choice. *)
Definition answered_with_choice (w : World) : Prop :=
  exists (c : Client) (k : ChatCompletion) (ch : Choice) (rest : list Choice),
    sdk_new w (environ w !! "OPENAI_API_KEY") = inr c
    /\ sdk_create w c create_kwargs = inr k
    /\ choices k = ch :: rest.

(** Standard output holds a text that is not empty, ended by the line
    feed. *)
Definition prints_nonempty_text (w : World) : Prop :=
  exists text : string,
    text <> EmptyString /\ stdout (trace w) = text +:+ NL.

(** ** Concrete worlds *)

Definition limerick : string := "There once was a language named Py".

Definition reply (texts : list (option string)) : ChatCompletion :=
  {| choices :=
       map (fun t => {| message := {| content := t; role := "assistant" |};
                        finish_reason := "stop" |}) texts |}.

(** A constructor that refuses a missing credential and keeps a given one. *)
Definition strict_new (key : option string) : exn + Client :=
  match key with
  | Some k => inr {| api_key := k |}
  | None => inl (SdkError "OpenAIError" "The api_key client option must be set")
  end.

(** A UTF-8 stream shown no surrogate: it refuses nothing. *)
Definition utf8_stream (s : string) : option string := None.

(** An ASCII stream: it refuses every text it is asked about. *)
Definition ascii_stream (s : string) : option string :=
  Some "'ascii' codec can't encode character: ordinal not in range(128)".

(** A service that answers every call with the same completion. *)
Definition world_answering (env : gmap string string) (c : ChatCompletion) : World :=
  {| environ := env; sdk_new := strict_new; sdk_create := fun _ _ => inr c;
     stdout_refuses := utf8_stream |}.

(** A service that fails every call with the same exception. *)
Definition world_failing (env : gmap string string) (e : exn) : World :=
  {| environ := env; sdk_new := strict_new; sdk_create := fun _ _ => inl e;
     stdout_refuses := utf8_stream |}.

Definition env_with_key : gmap string string := {[ "OPENAI_API_KEY" := "sk-test" ]}.

Definition env_without_key : gmap string string := {[ "HOME" := "/root" ]}.

Definition world_ok : World := world_answering env_with_key (reply [Some limerick]).

Definition world_two_choices : World :=
  world_answering env_with_key (reply [Some limerick; Some "another"; None]).

Definition world_no_key : World := world_answering env_without_key (reply [Some limerick]).

Definition world_no_choices : World := world_answering env_with_key (reply []).

Definition world_null_content : World := world_answering env_with_key (reply [None]).

Definition world_unreachable : World :=
  world_failing env_with_key (SdkError "APIConnectionError" "Connection error.").

(** A constructor that builds a client also without a credential. *)
Definition lenient_new (key : option string) : exn + Client :=
  inr {| api_key := default "unset" key |}.

Definition world_lenient : World :=
  {| environ := env_without_key;
     sdk_new := lenient_new;
     sdk_create := fun _ _ => inr (reply [Some limerick]);
     stdout_refuses := utf8_stream |}.

(** The service answers with the empty text. *)
Definition world_empty_content : World :=
  world_answering env_with_key (reply [Some EmptyString]).

(** A text with a character beyond ASCII (code 233). *)
Definition accented : string := "caf" +:+ String (Ascii.ascii_of_nat 233) EmptyString.

(** The service answers with [accented] and standard output is an ASCII
    stream. *)
Definition world_unencodable : World :=
  {| environ := env_with_key;
     sdk_new := strict_new;
     sdk_create := fun _ _ => inr (reply [Some accented]);
     stdout_refuses := ascii_stream |}.

(** ** The script on concrete worlds *)

Example run_world_ok :
  run world_ok =
    ([EGetenv "OPENAI_API_KEY"; ENewClient (Some "sk-test");
      ECreate {| api_key := "sk-test" |} create_kwargs;
      EWrite limerick; EWrite NL], inr tt).
Proof. vm_compute. reflexivity. Qed.

Example run_world_no_key :
  run world_no_key =
    ([EGetenv "OPENAI_API_KEY"; ENewClient None],
     inl (SdkError "OpenAIError" "The api_key client option must be set")).
Proof. vm_compute. reflexivity. Qed.

Example run_world_no_choices :
  run world_no_choices =
    ([EGetenv "OPENAI_API_KEY"; ENewClient (Some "sk-test");
      ECreate {| api_key := "sk-test" |} create_kwargs],
     inl (IndexError "list index out of range")).
Proof. vm_compute. reflexivity. Qed.

Example stdout_world_null_content :
  stdout (trace world_null_content) = "None" +:+ NL.
Proof. vm_compute. reflexivity. Qed.

Example run_world_unencodable :
  run world_unencodable =
    ([EGetenv "OPENAI_API_KEY"; ENewClient (Some "sk-test");
      ECreate {| api_key := "sk-test" |} create_kwargs],
     inl (UnicodeEncodeError
            "'ascii' codec can't encode character: ordinal not in range(128)")).
Proof. vm_compute. reflexivity. Qed.

Example stdout_world_empty_content :
  stdout (trace world_empty_content) = NL.
Proof. vm_compute. reflexivity. Qed.

(** ** How a run unfolds *)

Lemma list_getitem_nil {A : Type} (i : Z) :
  list_getitem (@nil A) i = inl (IndexError "list index out of range").
Proof.
  unfold list_getitem.
  destruct (_ || _); reflexivity.
Qed.

Lemma list_getitem_first {A : Type} (x : A) (l : list A) :
  list_getitem (x :: l) 0 = inr x.
Proof.
  unfold list_getitem.
  change (0 <? 0) with false. cbv iota zeta.
  replace (Z.of_nat (length (x :: l)) <=? 0) with false.
  - reflexivity.
  - symmetry. apply Z.leb_gt. rewrite length_cons. lia.
Qed.

(** The line feed and the word [None] are ASCII: no stream refuses them. *)
Lemma encode_error_ascii (w : World) (s : string) :
  isascii s = true -> encode_error w s = None.
Proof. intros H. unfold encode_error. rewrite H. reflexivity. Qed.

Lemma print_unfold (w : World) (x : option string) :
  print x w =
    match encode_error w (py_str x) with
    | Some msg => ([], inl (UnicodeEncodeError msg))
    | None => ([EWrite (py_str x); EWrite NL], inr tt)
    end.
Proof.
  unfold print, stdout_write, ask, emit, lift, mbind, M_bind.
  rewrite (encode_error_ascii w NL) by reflexivity.
  destruct (encode_error w (py_str x)); reflexivity.
Qed.

(** The statements after the call: the subscript and the print. *)
Lemma tail_of_main (w : World) (k : ChatCompletion) :
  (choice0 ← getitem (choices k) 0; print (content (message choice0))) w =
    match choices k with
    | [] => ([], inl (IndexError "list index out of range"))
    | ch :: _ =>
        match encode_error w (py_str (content (message ch))) with
        | Some msg => ([], inl (UnicodeEncodeError msg))
        | None => ([EWrite (py_str (content (message ch))); EWrite NL], inr tt)
        end
    end.
Proof.
  unfold getitem, lift, mbind, M_bind.
  destruct (choices k) as [|ch rest].
  - rewrite list_getitem_nil. reflexivity.
  - rewrite list_getitem_first, print_unfold.
    destruct (encode_error w _); reflexivity.
Qed.

(** Every run takes one of five courses, decided by what the constructor
    and the call answer, by whether the completion has a choice, and by
    whether standard output can encode the text. *)
Lemma run_unfold (w : World) :
  run w =
    let key := environ w !! "OPENAI_API_KEY" in
    match sdk_new w key with
    | inl e => ([EGetenv "OPENAI_API_KEY"; ENewClient key], inl e)
    | inr c =>
        match sdk_create w c create_kwargs with
        | inl e =>
            ([EGetenv "OPENAI_API_KEY"; ENewClient key; ECreate c create_kwargs], inl e)
        | inr k =>
            match choices k with
            | [] =>
                ([EGetenv "OPENAI_API_KEY"; ENewClient key; ECreate c create_kwargs],
                 inl (IndexError "list index out of range"))
            | ch :: _ =>
                match encode_error w (py_str (content (message ch))) with
                | Some msg =>
                    ([EGetenv "OPENAI_API_KEY"; ENewClient key; ECreate c create_kwargs],
                     inl (UnicodeEncodeError msg))
                | None =>
                    ([EGetenv "OPENAI_API_KEY"; ENewClient key; ECreate c create_kwargs;
                      EWrite (py_str (content (message ch))); EWrite NL], inr tt)
                end
            end
        end
    end.
Proof.
  cbv zeta. unfold run, main.
  unfold mbind at 1 2 3. unfold M_bind.
  unfold os_getenv, OpenAI, chat_completions_create, emit, ask, lift.
  unfold mbind, M_bind, mret, M_ret. cbn [app].
  destruct (sdk_new w (environ w !! "OPENAI_API_KEY")) as [e|c]; [reflexivity|].
  destruct (sdk_create w c create_kwargs) as [e|k]; [reflexivity|].
  pose proof (tail_of_main w k) as Ht.
  unfold mbind, M_bind in Ht. rewrite Ht.
  destruct (choices k) as [|ch rest]; [reflexivity|].
  destruct (encode_error w _); reflexivity.
Qed.

Ltac unfold_run :=
  unfold trace, result; rewrite run_unfold; cbv zeta.

Lemma append_NL_nonempty (s : string) : s +:+ NL <> EmptyString.
Proof. destruct s; discriminate. Qed.

Lemma stdout_two_writes (s : string) : stdout [EWrite s; EWrite NL] = s +:+ NL.
Proof. reflexivity. Qed.

(** The requests of a run: none when the constructor raises, otherwise the
    one call with the keyword arguments as written. *)
Lemma requests_of_run (w : World) :
  requests (trace w) =
    match sdk_new w (environ w !! "OPENAI_API_KEY") with
    | inl _ => []
    | inr c => [(c, create_kwargs)]
    end.
Proof.
  unfold_run.
  destruct (sdk_new w _) as [e|c]; [reflexivity|].
  destruct (sdk_create w c create_kwargs) as [e|k]; [reflexivity|].
  destruct (choices k) as [|ch rest]; [reflexivity|].
  destruct (encode_error w _); reflexivity.
Qed.

(** A run that ends in an exception has written nothing. *)
Lemma failure_writes_nothing (w : World) (e : exn) :
  result w = inl e -> stdout (trace w) = EmptyString.
Proof.
  unfold_run.
  destruct (sdk_new w _) as [e1|c]; [reflexivity|].
  destruct (sdk_create w c create_kwargs) as [e2|k]; [reflexivity|].
  destruct (choices k) as [|ch rest]; [reflexivity|].
  destruct (encode_error w _); [reflexivity|discriminate].
Qed.

(** The environment is read first, once, and the value goes straight to the
    constructor. *)
Lemma run_starts_with_credential (w : World) :
  take 2 (trace w) =
    [EGetenv "OPENAI_API_KEY"; ENewClient (environ w !! "OPENAI_API_KEY")]
  /\ env_reads (trace w) = ["OPENAI_API_KEY"]
  /\ constructed (trace w) = [environ w !! "OPENAI_API_KEY"].
Proof.
  unfold_run.
  destruct (sdk_new w _) as [e|c]; [repeat split|].
  destruct (sdk_create w c create_kwargs) as [e|k]; [repeat split|].
  destruct (choices k) as [|ch rest]; [repeat split|].
  destruct (encode_error w _); repeat split.
Qed.

(** ** The claims *)

(** C1: whatever the environment, the client and the service do, every
    request the script sends carries exactly two messages in this order: the
    system message with content [You're a helpful assistant.] and then the
    user message with content [Write a limerick about the Python programming
    language.]. *)
Theorem C1_request_messages_fixed (w : World) (c : Client) (kw : kwargs) :
  In (c, kw) (requests (trace w)) ->
  request_messages kw =
    Some [("system", "You're a helpful assistant.");
          ("user", "Write a limerick about the Python programming language.")].
Proof.
  rewrite requests_of_run.
  destruct (sdk_new w _) as [e|c']; simpl; [tauto|].
  intros [Heq|[]]. injection Heq as _ <-. reflexivity.
Qed.

Lemma C1_request_messages_fixed_witness :
  In ({| api_key := "sk-test" |}, create_kwargs) (requests (trace world_ok))
  /\ request_messages create_kwargs =
       Some [("system", "You're a helpful assistant.");
             ("user", "Write a limerick about the Python programming language.")].
Proof.
  split.
  - vm_compute. left. reflexivity.
  - apply (C1_request_messages_fixed world_ok {| api_key := "sk-test" |} create_kwargs).
    vm_compute. left. reflexivity.
Defined.

(** C2: of a returned completion only the content of the first choice's
    message is read.  Two runs on the same output stream that differ only in
    what the completion holds besides that content (further choices, other
    fields of the first choice) are the same run: the same events, the same
    output and the same result, so the further choices cause no error and
    change nothing. *)
Theorem C2_only_first_choice_content_read
    (w1 w2 : World) (c : Client) (k1 k2 : ChatCompletion)
    (ch1 ch2 : Choice) (rest1 rest2 : list Choice) :
  environ w1 !! "OPENAI_API_KEY" = environ w2 !! "OPENAI_API_KEY" ->
  stdout_refuses w1 = stdout_refuses w2 ->
  sdk_new w1 (environ w1 !! "OPENAI_API_KEY") = inr c ->
  sdk_new w2 (environ w2 !! "OPENAI_API_KEY") = inr c ->
  sdk_create w1 c create_kwargs = inr k1 ->
  sdk_create w2 c create_kwargs = inr k2 ->
  choices k1 = ch1 :: rest1 ->
  choices k2 = ch2 :: rest2 ->
  content (message ch1) = content (message ch2) ->
  run w1 = run w2.
Proof.
  intros Henv Hstream Hn1 Hn2 Hc1 Hc2 Hk1 Hk2 Hcontent.
  rewrite !run_unfold. cbv zeta.
  rewrite Hn1, Hn2, Hc1, Hc2, Hk1, Hk2, Henv, Hcontent.
  unfold encode_error. rewrite Hstream. reflexivity.
Qed.

Lemma C2_only_first_choice_content_read_witness :
  run world_two_choices = run world_ok.
Proof.
  apply (C2_only_first_choice_content_read
           world_two_choices world_ok {| api_key := "sk-test" |}
           (reply [Some limerick; Some "another"; None]) (reply [Some limerick])
           {| message := {| content := Some limerick; role := "assistant" |};
              finish_reason := "stop" |}
           {| message := {| content := Some limerick; role := "assistant" |};
              finish_reason := "stop" |}
           (choices (reply [Some "another"; None])) []);
    vm_compute; reflexivity.
Defined.

(** C3: on a successful run, where the call returned a completion whose
    first choice holds a text, standard output has received that text
    unchanged, then one line feed, and nothing else. *)
Theorem C3_stdout_is_content_then_newline
    (w : World) (c : Client) (k : ChatCompletion)
    (ch : Choice) (rest : list Choice) (text : string) :
  sdk_new w (environ w !! "OPENAI_API_KEY") = inr c ->
  sdk_create w c create_kwargs = inr k ->
  choices k = ch :: rest ->
  content (message ch) = Some text ->
  result w = inr tt ->
  stdout (trace w) = text +:+ NL.
Proof.
  intros Hn Hc Hk Ht. unfold_run.
  rewrite Hn, Hc, Hk, Ht. change (py_str (Some text)) with text.
  destruct (encode_error w text); intros Hok; [discriminate Hok|reflexivity].
Qed.

Lemma C3_stdout_is_content_then_newline_witness :
  stdout (trace world_two_choices) = limerick +:+ NL.
Proof.
  apply (C3_stdout_is_content_then_newline
           world_two_choices {| api_key := "sk-test" |}
           (reply [Some limerick; Some "another"; None])
           {| message := {| content := Some limerick; role := "assistant" |};
              finish_reason := "stop" |}
           (choices (reply [Some "another"; None])) limerick);
    vm_compute; reflexivity.
Defined.

(** C4, as the spec states it: whenever the credential variable is
    absent, the run fails before any request and any output.  The script
    has no check of its own; in [world_lenient] the variable is absent, the
    constructor returns a client all the same, and the run goes on to the
    request and succeeds. *)
Lemma C4_absent_credential_need_not_fail :
  ~ (forall w : World,
       environ w !! "OPENAI_API_KEY" = None ->
       exists e : exn,
         result w = inl e
         /\ requests (trace w) = []
         /\ stdout (trace w) = EmptyString).
Proof.
  intros Hall.
  destruct (Hall world_lenient) as (e & He & _).
  - vm_compute. reflexivity.
  - vm_compute in He. discriminate He.
Qed.

(** C4, amended: when the credential variable is absent, the constructor is
    handed [None]; when the constructor raises on it, the run ends there
    with that exception: no request has been issued and nothing has been
    written. *)
Theorem C4_missing_credential_fails_first (w : World) (e : exn) :
  environ w !! "OPENAI_API_KEY" = None ->
  sdk_new w None = inl e ->
  result w = inl e
  /\ trace w = [EGetenv "OPENAI_API_KEY"; ENewClient None]
  /\ requests (trace w) = []
  /\ stdout (trace w) = EmptyString
  /\ exit_status (result w) <> 0.
Proof.
  intros Habsent Hrej. unfold_run.
  rewrite Habsent, Hrej. repeat split. discriminate.
Qed.

Lemma C4_missing_credential_fails_first_witness :
  result world_no_key = inl (SdkError "OpenAIError" "The api_key client option must be set")
  /\ trace world_no_key = [EGetenv "OPENAI_API_KEY"; ENewClient None]
  /\ requests (trace world_no_key) = []
  /\ stdout (trace world_no_key) = EmptyString
  /\ exit_status (result world_no_key) <> 0.
Proof.
  apply (C4_missing_credential_fails_first world_no_key
           (SdkError "OpenAIError" "The api_key client option must be set"));
    vm_compute; reflexivity.
Defined.

(** C5, as the spec states it: whenever the constructor returns and the
    call returns a completion with at least one choice, standard output
    receives a text that is not empty.  In [world_empty_content] the first
    choice holds the empty text and only the line feed is written; in
    [world_unencodable] standard output cannot encode the text, [print]
    raises and nothing is written. *)
Lemma C5_answer_without_printed_text :
  (answered_with_choice world_empty_content
   /\ ~ prints_nonempty_text world_empty_content)
  /\ (answered_with_choice world_unencodable
      /\ ~ prints_nonempty_text world_unencodable).
Proof.
  split; split.
  - exists {| api_key := "sk-test" |}, (reply [Some EmptyString]),
      {| message := {| content := Some EmptyString; role := "assistant" |};
         finish_reason := "stop" |}, [].
    repeat split; vm_compute; reflexivity.
  - intros (text & Hne & Hout).
    assert (stdout (trace world_empty_content) = NL) as Hnl
      by (vm_compute; reflexivity).
    rewrite Hnl in Hout.
    destruct text as [|a t]; [congruence|].
    destruct t; discriminate Hout.
  - exists {| api_key := "sk-test" |}, (reply [Some accented]),
      {| message := {| content := Some accented; role := "assistant" |};
         finish_reason := "stop" |}, [].
    repeat split; vm_compute; reflexivity.
  - intros (text & _ & Hout).
    assert (stdout (trace world_unencodable) = EmptyString) as Hnone
      by (vm_compute; reflexivity).
    rewrite Hnone in Hout.
    destruct text; discriminate Hout.
Qed.

(** C5, amended: when the constructor returns, the call returns a
    completion with at least one choice, what [str] gives for the first
    choice's content is not the empty text, and standard output can encode
    it, the run succeeds and standard output holds that text, which is not
    empty, followed by the line feed. *)
Theorem C5_success_prints_nonempty
    (w : World) (c : Client) (k : ChatCompletion) (ch : Choice) (rest : list Choice) :
  sdk_new w (environ w !! "OPENAI_API_KEY") = inr c ->
  sdk_create w c create_kwargs = inr k ->
  choices k = ch :: rest ->
  py_str (content (message ch)) <> EmptyString ->
  encode_error w (py_str (content (message ch))) = None ->
  result w = inr tt
  /\ exit_status (result w) = 0
  /\ stdout (trace w) = py_str (content (message ch)) +:+ NL
  /\ prints_nonempty_text w.
Proof.
  intros Hn Hc Hk Hne Henc.
  assert (run w =
            ([EGetenv "OPENAI_API_KEY"; ENewClient (environ w !! "OPENAI_API_KEY");
              ECreate c create_kwargs;
              EWrite (py_str (content (message ch))); EWrite NL], inr tt)) as Hrun.
  { rewrite run_unfold. cbv zeta. rewrite Hn, Hc, Hk, Henc. reflexivity. }
  unfold prints_nonempty_text, trace, result. rewrite Hrun.
  repeat split.
  exists (py_str (content (message ch))). split; [assumption|reflexivity].
Qed.

Lemma C5_success_prints_nonempty_witness :
  result world_ok = inr tt
  /\ exit_status (result world_ok) = 0
  /\ stdout (trace world_ok) = limerick +:+ NL
  /\ prints_nonempty_text world_ok.
Proof.
  apply (C5_success_prints_nonempty
           world_ok {| api_key := "sk-test" |} (reply [Some limerick])
           {| message := {| content := Some limerick; role := "assistant" |};
              finish_reason := "stop" |} []);
    try (vm_compute; reflexivity).
  discriminate.
Defined.

(** C6, as the spec states it: every invocation issues exactly one request.
    The run in [world_no_key] issues none. *)
Lemma C6_not_every_invocation_requests :
  ~ (forall w : World, exists c : Client, requests (trace w) = [(c, create_kwargs)]).
Proof.
  intros Hall. destruct (Hall world_no_key) as [c Hc].
  vm_compute in Hc. discriminate Hc.
Qed.

(** C6, amended: a run issues no request when the constructor raises, and
    otherwise exactly one, on the client the constructor returned, with the
    keyword arguments [model], the fixed name [gpt-4o], and [messages], the
    two-message list, and no other keyword. *)
Theorem C6_one_request_once_client_built (w : World) :
  requests (trace w) =
    match sdk_new w (environ w !! "OPENAI_API_KEY") with
    | inl _ => []
    | inr c => [(c, [("model", PStr "gpt-4o"); ("messages", messages)])]
    end
  /\ (length (requests (trace w)) <= 1)%nat.
Proof.
  rewrite requests_of_run.
  destruct (sdk_new w _); split; simpl; (reflexivity || lia).
Qed.

(** C7: when the call raises, that same exception ends the run: the call
    was issued once and not again, nothing was written to standard output,
    and the exit status is not zero. *)
Theorem C7_call_failure_propagates (w : World) (c : Client) (e : exn) :
  sdk_new w (environ w !! "OPENAI_API_KEY") = inr c ->
  sdk_create w c create_kwargs = inl e ->
  result w = inl e
  /\ requests (trace w) = [(c, create_kwargs)]
  /\ stdout (trace w) = EmptyString
  /\ exit_status (result w) = 1.
Proof.
  intros Hn He. unfold_run.
  rewrite Hn, He. repeat split.
Qed.

Lemma C7_call_failure_propagates_witness :
  result world_unreachable = inl (SdkError "APIConnectionError" "Connection error.")
  /\ requests (trace world_unreachable) = [({| api_key := "sk-test" |}, create_kwargs)]
  /\ stdout (trace world_unreachable) = EmptyString
  /\ exit_status (result world_unreachable) = 1.
Proof.
  apply (C7_call_failure_propagates world_unreachable {| api_key := "sk-test" |}
           (SdkError "APIConnectionError" "Connection error."));
    vm_compute; reflexivity.
Defined.

(** C8: the variable is read once, as the first thing the run does, and
    whatever string it holds is handed to the constructor as it is, with
    nothing in between; when the constructor returns a client the request is
    made on it. *)
Theorem C8_credential_read_once_passed_unchecked (w : World) (v : string) :
  environ w !! "OPENAI_API_KEY" = Some v ->
  env_reads (trace w) = ["OPENAI_API_KEY"]
  /\ constructed (trace w) = [Some v]
  /\ take 2 (trace w) = [EGetenv "OPENAI_API_KEY"; ENewClient (Some v)]
  /\ (forall c : Client, sdk_new w (Some v) = inr c ->
      requests (trace w) = [(c, create_kwargs)]).
Proof.
  intros Hv.
  destruct (run_starts_with_credential w) as (Htake & Hreads & Hbuilt).
  rewrite Hv in Htake, Hbuilt.
  repeat split; try assumption.
  intros c Hc. rewrite requests_of_run, Hv, Hc. reflexivity.
Qed.

Lemma C8_credential_read_once_passed_unchecked_witness :
  env_reads (trace world_ok) = ["OPENAI_API_KEY"]
  /\ constructed (trace world_ok) = [Some "sk-test"]
  /\ take 2 (trace world_ok) = [EGetenv "OPENAI_API_KEY"; ENewClient (Some "sk-test")]
  /\ (forall c : Client, sdk_new world_ok (Some "sk-test") = inr c ->
      requests (trace world_ok) = [(c, create_kwargs)]).
Proof.
  apply (C8_credential_read_once_passed_unchecked world_ok "sk-test").
  vm_compute. reflexivity.
Defined.

(** C9: when the call returns a completion with no choice, the subscript
    [choices[0]] raises [IndexError], which ends the run, and nothing has
    been written to standard output. *)
Theorem C9_empty_choices_raise_index_error
    (w : World) (c : Client) (k : ChatCompletion) :
  sdk_new w (environ w !! "OPENAI_API_KEY") = inr c ->
  sdk_create w c create_kwargs = inr k ->
  choices k = [] ->
  result w = inl (IndexError "list index out of range")
  /\ stdout (trace w) = EmptyString
  /\ exit_status (result w) = 1.
Proof.
  intros Hn Hc Hk. unfold_run.
  rewrite Hn, Hc, Hk. repeat split.
Qed.

Lemma C9_empty_choices_raise_index_error_witness :
  result world_no_choices = inl (IndexError "list index out of range")
  /\ stdout (trace world_no_choices) = EmptyString
  /\ exit_status (result world_no_choices) = 1.
Proof.
  apply (C9_empty_choices_raise_index_error
           world_no_choices {| api_key := "sk-test" |} (reply []));
    vm_compute; reflexivity.
Defined.

(** C10: when the content of the first choice's message is [None], the run
    does not fail: it writes the word [None] and a line feed. *)
Theorem C10_null_content_prints_None
    (w : World) (c : Client) (k : ChatCompletion) (ch : Choice) (rest : list Choice) :
  sdk_new w (environ w !! "OPENAI_API_KEY") = inr c ->
  sdk_create w c create_kwargs = inr k ->
  choices k = ch :: rest ->
  content (message ch) = None ->
  result w = inr tt
  /\ stdout (trace w) = "None" +:+ NL
  /\ exit_status (result w) = 0.
Proof.
  intros Hn Hc Hk Hnone. unfold_run.
  rewrite Hn, Hc, Hk, Hnone.
  rewrite (encode_error_ascii w (py_str None)) by reflexivity.
  repeat split.
Qed.

Lemma C10_null_content_prints_None_witness :
  result world_null_content = inr tt
  /\ stdout (trace world_null_content) = "None" +:+ NL
  /\ exit_status (result world_null_content) = 0.
Proof.
  apply (C10_null_content_prints_None
           world_null_content {| api_key := "sk-test" |} (reply [None])
           {| message := {| content := None; role := "assistant" |};
              finish_reason := "stop" |} []);
    vm_compute; reflexivity.
Defined.

(** ** Further properties of the run *)

(** X1: the run returns normally only if the constructor returned a
    client, the call on it returned a completion, that completion had a
    first choice, and standard output could encode what [str] gives for its
    content; standard output then holds that text and the line feed. *)
Theorem X1_success_only_if (w : World) :
  result w = inr tt ->
  exists (c : Client) (k : ChatCompletion) (ch : Choice) (rest : list Choice),
    sdk_new w (environ w !! "OPENAI_API_KEY") = inr c
    /\ sdk_create w c create_kwargs = inr k
    /\ choices k = ch :: rest
    /\ encode_error w (py_str (content (message ch))) = None
    /\ stdout (trace w) = py_str (content (message ch)) +:+ NL.
Proof.
  unfold_run.
  destruct (sdk_new w (environ w !! "OPENAI_API_KEY")) as [e|c]; [discriminate|].
  destruct (sdk_create w c create_kwargs) as [e|k] eqn:Hc; [discriminate|].
  destruct (choices k) as [|ch rest] eqn:Hk; [discriminate|].
  destruct (encode_error w (py_str (content (message ch)))) eqn:Henc; [discriminate|].
  intros _. exists c, k, ch, rest. repeat split; assumption.
Qed.

Lemma X1_success_only_if_witness :
  exists (c : Client) (k : ChatCompletion) (ch : Choice) (rest : list Choice),
    sdk_new world_ok (environ world_ok !! "OPENAI_API_KEY") = inr c
    /\ sdk_create world_ok c create_kwargs = inr k
    /\ choices k = ch :: rest
    /\ encode_error world_ok (py_str (content (message ch))) = None
    /\ stdout (trace world_ok) = py_str (content (message ch)) +:+ NL.
Proof.
  apply (X1_success_only_if world_ok).
  vm_compute. reflexivity.
Defined.

(** X3: the exit status is 0 exactly when something was written to standard
    output: a failing run leaves it empty and a successful run never does. *)
Theorem X3_output_iff_exit_zero (w : World) :
  exit_status (result w) = 0 <-> stdout (trace w) <> EmptyString.
Proof.
  unfold_run.
  destruct (sdk_new w _) as [e|c]; [split; [discriminate|intros H; elim H; reflexivity]|].
  destruct (sdk_create w c create_kwargs) as [e|k];
    [split; [discriminate|intros H; elim H; reflexivity]|].
  destruct (choices k) as [|ch rest];
    [split; [discriminate|intros H; elim H; reflexivity]|].
  destruct (encode_error w _);
    [split; [discriminate|intros H; elim H; reflexivity]|].
  split; [|reflexivity].
  intros _. apply (append_NL_nonempty (py_str (content (message ch)))).
Qed.

(** X5: the events of a run come in one order, each at most once: the
    environment read, the constructor call with the value read, the call of
    [create] with the keyword arguments as written, the write of the text,
    the write of the line feed.  A run is a prefix of that sequence, so
    nothing is written before the request and nothing is requested before
    the client is built. *)
Theorem X5_events_in_order (w : World) :
  exists (c : Client) (s : string),
    trace w `prefix_of`
      [EGetenv "OPENAI_API_KEY"; ENewClient (environ w !! "OPENAI_API_KEY");
       ECreate c create_kwargs; EWrite s; EWrite NL].
Proof.
  unfold_run.
  destruct (sdk_new w _) as [e|c].
  - exists {| api_key := EmptyString |}, EmptyString. eexists. reflexivity.
  - exists c.
    destruct (sdk_create w c create_kwargs) as [e|k].
    + exists EmptyString. eexists. reflexivity.
    + destruct (choices k) as [|ch rest].
      * exists EmptyString. eexists. reflexivity.
      * destruct (encode_error w _).
        -- exists EmptyString. eexists. reflexivity.
        -- exists (py_str (content (message ch))). exists []. reflexivity.
Qed.

(** X6: an absent credential variable is not replaced by a default and not
    refused by the script: the constructor is handed [None], and when the
    constructor returns a client all the same, the request is made on it. *)
Theorem X6_absent_credential_passed_as_None (w : World) :
  environ w !! "OPENAI_API_KEY" = None ->
  constructed (trace w) = [None]
  /\ (forall c : Client, sdk_new w None = inr c ->
      requests (trace w) = [(c, create_kwargs)]).
Proof.
  intros Hv.
  destruct (run_starts_with_credential w) as (_ & _ & Hbuilt).
  rewrite Hv in Hbuilt. split; [assumption|].
  intros c Hc. rewrite requests_of_run, Hv, Hc. reflexivity.
Qed.

Lemma X6_absent_credential_passed_as_None_witness :
  constructed (trace world_lenient) = [None]
  /\ requests (trace world_lenient) = [({| api_key := "unset" |}, create_kwargs)].
Proof.
  assert (environ world_lenient !! "OPENAI_API_KEY" = None) as Hv
    by (vm_compute; reflexivity).
  destruct (X6_absent_credential_passed_as_None world_lenient Hv) as [Hbuilt Hreq].
  split.
  - exact Hbuilt.
  - apply Hreq. reflexivity.
Defined.

(** X7: when standard output cannot encode the text of the first choice,
    [print] raises [UnicodeEncodeError] with the encoder's message: the run
    ends with it after the one request, with exit status 1, and nothing has
    been written, not even the line feed. *)
Theorem X7_unencodable_content_fails_without_output
    (w : World) (c : Client) (k : ChatCompletion)
    (ch : Choice) (rest : list Choice) (msg : string) :
  sdk_new w (environ w !! "OPENAI_API_KEY") = inr c ->
  sdk_create w c create_kwargs = inr k ->
  choices k = ch :: rest ->
  encode_error w (py_str (content (message ch))) = Some msg ->
  result w = inl (UnicodeEncodeError msg)
  /\ stdout (trace w) = EmptyString
  /\ requests (trace w) = [(c, create_kwargs)]
  /\ exit_status (result w) = 1.
Proof.
  intros Hn Hc Hk Henc. unfold_run.
  rewrite Hn, Hc, Hk, Henc. repeat split.
Qed.

Lemma X7_unencodable_content_fails_without_output_witness :
  result world_unencodable =
    inl (UnicodeEncodeError
           "'ascii' codec can't encode character: ordinal not in range(128)")
  /\ stdout (trace world_unencodable) = EmptyString
  /\ requests (trace world_unencodable) = [({| api_key := "sk-test" |}, create_kwargs)]
  /\ exit_status (result world_unencodable) = 1.
Proof.
  apply (X7_unencodable_content_fails_without_output
           world_unencodable {| api_key := "sk-test" |} (reply [Some accented])
           {| message := {| content := Some accented; role := "assistant" |};
              finish_reason := "stop" |} []
           "'ascii' codec can't encode character: ordinal not in range(128)");
    vm_compute; reflexivity.
Defined.
